(** * Response handlers of the AI model specification

    A shallow embedding of
    [packages/core/ai-model-specification/util/response-handler.ts]:
    [createJsonErrorResponseHandler], [createEventSourceResponseHandler]
    and [createJsonResponseHandler], with the properties their
    specification states about them. *)

From Stdlib Require Import List NArith Bool String Ascii Lia.
Import ListNotations.

Set Implicit Arguments.

(** ** JavaScript strings

    A JavaScript string is a sequence of UTF-16 code units.  The handlers
    use three string operations: literals, [===] and
    [String.prototype.trim]. *)

Module JsString.

Definition code_unit := N.

Definition jsstring := list code_unit.

(** A literal written in the source, one code unit per ASCII character. *)
Definition lit (s : string) : jsstring :=
  map N_of_ascii (list_ascii_of_string s).

(** The empty string literal of the source. *)
Definition empty : jsstring := [].

(** [a === b] on strings. *)
Fixpoint eqb (a b : jsstring) : bool :=
  match a, b with
  | [], [] => true
  | x :: a', y :: b' => N.eqb x y && eqb a' b'
  | _, _ => false
  end.

(** ECMAScript WhiteSpace and LineTerminator code points, the ones
    [trim] removes: TAB, LF, VT, FF, CR, SP, NBSP, the Zs category,
    LS, PS and ZWNBSP. *)
Definition isWhiteSpace (c : code_unit) : bool :=
  ((9 <=? c) && (c <=? 13)
   || (c =? 32) || (c =? 160) || (c =? 5760)
   || (8192 <=? c) && (c <=? 8202)
   || (c =? 8232) || (c =? 8233) || (c =? 8239) || (c =? 8287)
   || (c =? 12288) || (c =? 65279))%N.

Fixpoint trimStart (s : jsstring) : jsstring :=
  match s with
  | [] => []
  | c :: s' => if isWhiteSpace c then trimStart s' else s
  end.

Definition trimEnd (s : jsstring) : jsstring :=
  rev (trimStart (rev s)).

Definition trim (s : jsstring) : jsstring :=
  trimEnd (trimStart s).

End JsString.

Import JsString.

(** ** Completions and async functions

    A JavaScript computation either completes normally with a value or
    throws.  [E] is the type of thrown values. *)

Inductive Completion (E A : Type) : Type :=
| Normal (a : A)
| Throw (e : E).

Arguments Normal {E A} a.
Arguments Throw {E A} e.

Definition bind {E A B} (c : Completion E A) (k : A -> Completion E B)
  : Completion E B :=
  match c with
  | Normal a => k a
  | Throw e => Throw e
  end.

Declare Scope js_scope.
Delimit Scope js_scope with js.

Notation "x <- c ;; k" := (bind c (fun x => k))
  (at level 100, c at next level, right associativity) : js_scope.

Open Scope js_scope.

(** [try { body } catch (e) { handler }] *)
Definition try_catch {E A} (body : Completion E A)
  (handler : E -> Completion E A) : Completion E A :=
  match body with
  | Normal a => Normal a
  | Throw e => handler e
  end.

(** An [async] function runs until its first [await]; there it suspends
    on a promise of body text and resumes with the text when the promise
    is fulfilled.  [Settled c] is a function body that has run to
    completion [c]: the returned promise is fulfilled with the value of a
    normal completion and rejected with the value of a throw. *)
Inductive Async (E A : Type) : Type :=
| Settled (c : Completion E A)
| Await (p : Completion E jsstring) (k : jsstring -> Async E A).

Arguments Settled {E A} c.
Arguments Await {E A} p k.

(** The settlement of the promise an async function returns.  Awaiting a
    rejected promise throws at the [await]. *)
Fixpoint settle {E A} (m : Async E A) : Completion E A :=
  match m with
  | Settled c => c
  | Await p k =>
      match p with
      | Normal s => settle (k s)
      | Throw e => Throw e
      end
  end.

(** ** Streams

    A [ReadableStream] is represented by the sequence of chunks it
    delivers.  A [TransformStream] holds a state, a [transform] callback
    run once per incoming chunk and a [flush] callback run when the
    readable side closes; both enqueue outgoing chunks on the
    controller. *)

Definition ReadableStream (A : Type) := list A.

Definition Controller (B : Type) := list B.

Definition enqueue {B} (controller : Controller B) (chunk : B)
  : Controller B :=
  controller ++ [chunk].

Record TransformStream (A B : Type) : Type := {
  ts_state : Type;
  ts_start : ts_state;
  ts_transform : A -> ts_state -> Controller B -> ts_state * Controller B;
  ts_flush : ts_state -> Controller B -> Controller B
}.

Definition pipeThrough {A B} (s : ReadableStream A)
  (t : TransformStream A B) : ReadableStream B :=
  let '(st, q) :=
    fold_left (fun acc chunk => ts_transform t chunk (fst acc) (snd acc))
      s (ts_start t, []) in
  ts_flush t st q.

(** A transformer given by a [transform] callback alone, as the source
    builds its own: no state, nothing to flush. *)
Definition transformer {A B} (transform : A -> Controller B -> Controller B)
  : TransformStream A B :=
  {| ts_state := unit;
     ts_start := tt;
     ts_transform := fun chunk st controller => (st, transform chunk controller);
     ts_flush := fun _ controller => controller |}.

(** ** Events of the event-source parser

    The [ParsedEvent] of [eventsource-parser]: the [data] field and the
    optional event name, id and retry fields. *)

Module EventSource.

Record ParsedEvent : Type := {
  event : option jsstring;
  data : jsstring;
  id : option jsstring;
  retry : option N
}.

End EventSource.

(** ** The response handlers *)

Section ResponseHandlers.

(** [T] is the type parameter of the three handler factories: the decoded
    payload.  [Unknown] holds the values the source types as [unknown]:
    the request body values and whatever a callback or a capability
    throws. *)
Variable T : Type.
Variable Unknown : Type.

(** Modelled from the spec: the structured parse failure
    ([JSONParseError] or [TypeValidationError]) that [parse-json.ts]
    reports; the file is not among the sources. *)
Variable ParseError : Type.

(** A [ZodSchema<T>]. *)
Variable ZodSchema : Type.

(** Modelled from the spec: [ApiCallError] of [../errors], which is not
    among the sources.  The record holds the attributes the spec lists for
    a Structured API Error, as the handlers pass them to the constructor;
    an optional attribute the handler leaves out is [None]. *)
Record ApiCallError : Type := {
  message : jsstring;
  url : jsstring;
  requestBodyValues : Unknown;
  statusCode : N;
  responseBody : jsstring;
  cause : option ParseError;
  isRetryable : option bool;
  data : option T
}.

(** What a handler or a callback can throw: [new Error(message)], an
    [ApiCallError], or any other value. *)
Inductive Thrown : Type :=
| JsError (message : jsstring)
| ThrownApiCallError (e : ApiCallError)
| ThrownValue (v : Unknown).

Definition Js (A : Type) : Type := Completion Thrown A.

(** The fetch [Response]: [status], [statusText], the settlement of the
    promise [text()] returns (it is rejected when the body cannot be
    read), and [body], which is [null] or a stream of byte chunks. *)
Record Response : Type := {
  status : N;
  statusText : jsstring;
  text : Js jsstring;
  body : option (ReadableStream (list Byte.byte))
}.

(** Modelled from the spec: the result of the tolerant decoder
    [safeParseJSON] of [parse-json.ts], [{success: true, value}] or
    [{success: false, error}]. *)
Inductive ParseResult : Type :=
| Success (value : T)
| Failure (error : ParseError).

(** [ParsedChunk<T>] of [parsed-chunk.ts]: [{type: 'value', value}] or
    [{type: 'error', error}]. *)
Inductive ParsedChunk : Type :=
| ValueChunk (value : T)
| ErrorChunk (error : ParseError).

(** Modelled from the spec: the two decoders of [parse-json.ts], which is
    not among the sources.  [parseJSON] is the strict one: it returns the
    validated value or throws.  [safeParseJSON] is the tolerant one: it
    never throws and returns a [ParseResult]. *)
Variable parseJSON : jsstring -> ZodSchema -> Js T.
Variable safeParseJSON : jsstring -> ZodSchema -> ParseResult.

(** The two platform stages of the streaming pipeline, taken as given:
    [new TextDecoderStream()] and [new EventSourceParserStream()]. *)
Variable TextDecoderStream : TransformStream (list Byte.byte) jsstring.
Variable EventSourceParserStream : TransformStream jsstring EventSource.ParsedEvent.

(** [ResponseHandler<RETURN_TYPE>]: the options object is destructured
    into its three fields. *)
Definition ResponseHandler (RETURN_TYPE : Type) : Type :=
  jsstring -> Unknown -> Response -> Async Thrown RETURN_TYPE.

(** The optional retryability predicate; its second parameter is
    optional. *)
Definition RetryPredicate : Type := Response -> option T -> Js bool.

(** [isRetryable?.(response, error)]: [undefined] when no predicate was
    supplied. *)
Definition optional_call (isRetryable : option RetryPredicate)
  (response : Response) (error : option T) : Js (option bool) :=
  match isRetryable with
  | None => Normal None
  | Some f => b <- f response error ;; Normal (Some b)
  end.

Definition createJsonErrorResponseHandler
  (errorSchema : ZodSchema)
  (errorToMessage : T -> Js jsstring)
  (isRetryable : option RetryPredicate)
  : ResponseHandler ApiCallError :=
  fun url requestBodyValues response =>
  Await (text response) (fun responseBody =>
  Settled (
    (* Some providers return an empty response body for some errors: *)
    if JsString.eqb (trim responseBody) empty then
      retryable <- optional_call isRetryable response None ;;
      Normal {| message := statusText response;
                url := url;
                requestBodyValues := requestBodyValues;
                statusCode := status response;
                responseBody := responseBody;
                cause := None;
                isRetryable := retryable;
                data := None |}
    else
      (* resilient parsing in case the response is not JSON or does not
         match the schema: *)
      try_catch
        (parsedError <- parseJSON responseBody errorSchema ;;
         msg <- errorToMessage parsedError ;;
         retryable <- optional_call isRetryable response (Some parsedError) ;;
         Normal {| message := msg;
                   url := url;
                   requestBodyValues := requestBodyValues;
                   statusCode := status response;
                   responseBody := responseBody;
                   cause := None;
                   isRetryable := retryable;
                   data := Some parsedError |})
        (fun parseError =>
         retryable <- optional_call isRetryable response None ;;
         Normal {| message := statusText response;
                   url := url;
                   requestBodyValues := requestBodyValues;
                   statusCode := status response;
                   responseBody := responseBody;
                   cause := None;
                   isRetryable := retryable;
                   data := None |}))).

(** The literal ['[DONE]']. *)
Definition DONE : jsstring := lit "[DONE]".

(** The [transform] callback of the third pipeline stage. *)
Definition transform (chunkSchema : ZodSchema)
  (ev : EventSource.ParsedEvent) (controller : Controller ParsedChunk)
  : Controller ParsedChunk :=
  let data := EventSource.data ev in
  if JsString.eqb data DONE then controller
  else
    let parseResult := safeParseJSON data chunkSchema in
    enqueue controller
      match parseResult with
      | Success value => ValueChunk value
      | Failure error => ErrorChunk error
      end.

Definition createEventSourceResponseHandler (chunkSchema : ZodSchema)
  : ResponseHandler (ReadableStream ParsedChunk) :=
  fun _url _requestBodyValues response =>
  Settled
    match body response with
    | None => Throw (JsError (lit "No response body"))
    | Some stream =>
        Normal
          (pipeThrough
             (pipeThrough (pipeThrough stream TextDecoderStream)
                EventSourceParserStream)
             (transformer (transform chunkSchema)))
    end.

Definition createJsonResponseHandler (responseSchema : ZodSchema)
  : ResponseHandler T :=
  fun url requestBodyValues response =>
  Await (text response) (fun responseBody =>
  Settled (
    let parsedResult := safeParseJSON responseBody responseSchema in
    match parsedResult with
    | Failure error =>
        Throw (ThrownApiCallError
                 {| message := lit "Invalid JSON response";
                    cause := Some error;
                    statusCode := status response;
                    responseBody := responseBody;
                    url := url;
                    requestBodyValues := requestBodyValues;
                    isRetryable := None;
                    data := None |})
    | Success value => Normal value
    end)).

End ResponseHandlers.

Arguments JsError {T Unknown ParseError} message.
Arguments ThrownApiCallError {T Unknown ParseError} e.
Arguments ThrownValue {T Unknown ParseError} v.
Arguments Success {T ParseError} value.
Arguments Failure {T ParseError} error.
Arguments ValueChunk {T ParseError} value.
Arguments ErrorChunk {T ParseError} error.

(** ** A concrete instance

    A small instance of the capabilities the handlers are given, used to
    run them on concrete responses: a decoder for one-field JSON objects
    and a line-oriented event-stream framer. *)

Module Example.

Definition LF : code_unit := 10%N.
Definition quote : code_unit := 34%N.
Definition backslash : code_unit := 92%N.

(** The decoded payload: the value of the object's field. *)
Inductive JsonValue : Type :=
| JNum (n : N)
| JStr (s : jsstring).

(** The schema names the field the object must have. *)
Definition Schema : Type := jsstring.

Fixpoint stripPrefix (p s : jsstring) : option jsstring :=
  match p, s with
  | [], _ => Some s
  | x :: p', y :: s' => if N.eqb x y then stripPrefix p' s' else None
  | _ :: _, [] => None
  end.

Definition stripSuffix (p s : jsstring) : option jsstring :=
  option_map (@rev _) (stripPrefix (rev p) (rev s)).

Definition isDigit (c : code_unit) : bool := ((48 <=? c) && (c <=? 57))%N.

Definition digitsValue (s : jsstring) : N :=
  fold_left (fun acc c => (10 * acc + (c - 48))%N) s 0%N.

Definition decodeValue (v : jsstring) : option JsonValue :=
  match v with
  | [] => None
  | c :: rest =>
      if forallb isDigit v then Some (JNum (digitsValue v))
      else if N.eqb c quote then
        match stripSuffix [quote] rest with
        | Some inner =>
            if forallb (fun x => negb (N.eqb x quote || N.eqb x backslash)) inner
            then Some (JStr inner) else None
        | None => None
        end
      else None
  end.

(** Accepts exactly [{"key":value}] with [value] a run of digits or a
    string without escapes. *)
Definition decodeField (key text : jsstring) : option JsonValue :=
  match stripPrefix (lit "{" ++ [quote] ++ key ++ [quote] ++ lit ":") text with
  | Some rest =>
      match stripSuffix (lit "}") rest with
      | Some v => decodeValue v
      | None => None
      end
  | None => None
  end.

Definition Thrown' : Type := Thrown JsonValue jsstring jsstring.
Definition Response' : Type := Response JsonValue jsstring jsstring.
Definition ApiCallError' : Type := ApiCallError JsonValue jsstring jsstring.

Definition parseJSON (text : jsstring) (schema : Schema)
  : Completion Thrown' JsonValue :=
  match decodeField schema text with
  | Some v => Normal v
  | None => Throw (ThrownValue text)
  end.

Definition safeParseJSON (text : jsstring) (schema : Schema)
  : ParseResult JsonValue jsstring :=
  match decodeField schema text with
  | Some v => Success v
  | None => Failure text
  end.

(** Bytes to text, one code unit per byte (ASCII input). *)
Definition textDecoderStream : TransformStream (list Byte.byte) jsstring :=
  transformer (fun chunk controller =>
    enqueue controller (map Byte.to_N chunk)).

Definition toBytes (s : jsstring) : list Byte.byte :=
  flat_map (fun c => match Byte.of_N c with Some b => [b] | None => [] end) s.

(** The framer reads the text character by character: [line] is the
    current line, [pending] the data of the event being assembled.  A
    [data:] line adds to the event, a blank line dispatches it, other
    fields are skipped. *)
Record FramerState : Type := {
  line : jsstring;
  pending : option jsstring
}.

Definition dataOfLine (l : jsstring) : option jsstring :=
  match stripPrefix (lit "data:") l with
  | Some (32%N :: v) => Some v
  | other => other
  end.

Definition feed (acc : FramerState * Controller EventSource.ParsedEvent)
  (c : code_unit) : FramerState * Controller EventSource.ParsedEvent :=
  let '(st, controller) := acc in
  if N.eqb c LF then
    match line st, pending st with
    | [], Some d =>
        ({| line := []; pending := None |},
         enqueue controller
           {| EventSource.event := None; EventSource.data := d;
              EventSource.id := None; EventSource.retry := None |})
    | [], None => ({| line := []; pending := None |}, controller)
    | l, p =>
        match dataOfLine l with
        | Some v =>
            ({| line := [];
                pending := Some match p with
                                | None => v
                                | Some d => d ++ [LF] ++ v
                                end |}, controller)
        | None => ({| line := []; pending := p |}, controller)
        end
    end
  else ({| line := line st ++ [c]; pending := pending st |}, controller).

Definition eventSourceParserStream
  : TransformStream jsstring EventSource.ParsedEvent :=
  {| ts_state := FramerState;
     ts_start := {| line := []; pending := None |};
     ts_transform := fun chunk st controller => fold_left feed chunk (st, controller);
     ts_flush := fun _ controller => controller |}.

(** Sample calls. *)
Definition sampleUrl : jsstring := lit "https://api.example.com/v1/chat".
Definition sampleRequest : jsstring := lit "{}".

Definition errorSchema : Schema := lit "error".
Definition chunkSchema : Schema := lit "v".

Definition errorToMessage (e : JsonValue) : Completion Thrown' jsstring :=
  match e with
  | JStr s => Normal s
  | JNum _ => Normal (lit "unknown error")
  end.

Definition errorToMessageThrows (e : JsonValue) : Completion Thrown' jsstring :=
  Throw (ThrownValue (lit "no message")).

Definition retryOn429 : RetryPredicate JsonValue jsstring jsstring :=
  fun response _ => Normal (N.eqb (status response) 429%N).

Definition retryThrows : RetryPredicate JsonValue jsstring jsstring :=
  fun _ _ => Throw (ThrownValue (lit "predicate failed")).

Definition rateLimitedBody : jsstring :=
  lit "{" ++ [quote] ++ lit "error" ++ [quote] ++ lit ":"
    ++ [quote] ++ lit "rate limited" ++ [quote] ++ lit "}".

Definition v1Body : jsstring :=
  lit "{" ++ [quote] ++ lit "v" ++ [quote] ++ lit ":1}".

Definition response500 : Response' :=
  {| status := 500%N; statusText := lit "Internal Server Error";
     text := Normal (lit "  " ++ [LF]); body := None |}.

Definition response429 : Response' :=
  {| status := 429%N; statusText := lit "Too Many Requests";
     text := Normal rateLimitedBody; body := None |}.

Definition response502 : Response' :=
  {| status := 502%N; statusText := lit "Bad Gateway";
     text := Normal (lit "<html>Bad Gateway</html>"); body := None |}.

Definition responseUnreadable : Response' :=
  {| status := 500%N; statusText := lit "Internal Server Error";
     text := Throw (ThrownValue (lit "TypeError: Body is unusable"));
     body := None |}.

Definition response200 : Response' :=
  {| status := 200%N; statusText := lit "OK";
     text := Normal v1Body; body := None |}.

Definition streamText : jsstring :=
  lit "data: " ++ v1Body ++ [LF; LF] ++ lit "data: [DONE]" ++ [LF; LF].

Definition responseStream : Response' :=
  {| status := 200%N; statusText := lit "OK";
     text := Normal streamText;
     body := Some [toBytes (firstn 10 streamText); toBytes (skipn 10 streamText)] |}.

Definition mixedStreamText : jsstring :=
  lit "data: oops" ++ [LF; LF] ++ lit "data: " ++ v1Body ++ [LF; LF].

Definition responseMixedStream : Response' :=
  {| status := 200%N; statusText := lit "OK";
     text := Normal mixedStreamText;
     body := Some [toBytes mixedStreamText] |}.

Definition rateLimitedError : ApiCallError' :=
  {| message := lit "rate limited";
     url := sampleUrl;
     requestBodyValues := sampleRequest;
     statusCode := 429%N;
     responseBody := rateLimitedBody;
     cause := None;
     isRetryable := Some true;
     data := Some (JStr (lit "rate limited")) |}.

Definition eventOf (d : jsstring) : EventSource.ParsedEvent :=
  {| EventSource.event := None; EventSource.data := d;
     EventSource.id := None; EventSource.retry := None |}.

(** A predicate that throws when it is given a payload and returns
    without one. *)
Definition retryThrowsOnPayload : RetryPredicate JsonValue jsstring jsstring :=
  fun _ error =>
    match error with
    | Some _ => Throw (ThrownValue (lit "predicate failed"))
    | None => Normal true
    end.

(** A strict decoder that accepts nothing. *)
Definition parseJSONNever (text : jsstring) (schema : Schema)
  : Completion Thrown' JsonValue :=
  Throw (ThrownValue text).

(** The [[DONE]] marker first, a data event after it. *)
Definition doneFirstText : jsstring :=
  lit "data: [DONE]" ++ [LF; LF] ++ lit "data: " ++ v1Body ++ [LF; LF].

Definition responseDoneFirst : Response' :=
  {| status := 200%N; statusText := lit "OK";
     text := Normal doneFirstText;
     body := Some [toBytes doneFirstText] |}.

(** Nothing but [[DONE]] markers. *)
Definition onlyDoneText : jsstring :=
  lit "data: [DONE]" ++ [LF; LF] ++ lit "data: [DONE]" ++ [LF; LF].

Definition responseOnlyDone : Response' :=
  {| status := 200%N; statusText := lit "OK";
     text := Normal onlyDoneText;
     body := Some [toBytes onlyDoneText] |}.

(** What the whole-body handler throws on [response502]. *)
Definition invalidJson502 : Thrown' :=
  ThrownApiCallError
    {| message := lit "Invalid JSON response";
       url := sampleUrl;
       requestBodyValues := sampleRequest;
       statusCode := 502%N;
       responseBody := lit "<html>Bad Gateway</html>";
       cause := Some (lit "<html>Bad Gateway</html>");
       isRetryable := None;
       data := None |}.

(** An event with a name and an id. *)
Definition namedEvent (d : jsstring) : EventSource.ParsedEvent :=
  {| EventSource.event := Some (lit "delta"); EventSource.data := d;
     EventSource.id := Some (lit "7"); EventSource.retry := Some 3000%N |}.

End Example.

(** * Properties *)

Unset Implicit Arguments.

(** ** Strings *)

Module JsStringFacts.

Lemma eqb_refl (a : jsstring) : JsString.eqb a a = true.
Proof.
  induction a as [|x a IH]; simpl; [reflexivity|].
  now rewrite N.eqb_refl, IH.
Qed.

Lemma eqb_eq (a b : jsstring) : JsString.eqb a b = true <-> a = b.
Proof.
  split; [|intros ->; apply eqb_refl].
  revert b; induction a as [|x a IH]; intros [|y b]; simpl; try discriminate.
  - reflexivity.
  - intros H. apply andb_true_iff in H as [Hx Hab].
    apply N.eqb_eq in Hx. apply IH in Hab. congruence.
Qed.

Lemma eqb_neq (a b : jsstring) : JsString.eqb a b = false <-> a <> b.
Proof.
  rewrite <- eqb_eq. destruct (JsString.eqb a b); split; congruence.
Qed.

Lemma trimStart_nil (s : jsstring) :
  trimStart s = [] <-> forallb isWhiteSpace s = true.
Proof.
  induction s as [|c s IH]; simpl; [tauto|].
  destruct (isWhiteSpace c); simpl; [exact IH|].
  split; discriminate.
Qed.

(** What is left after [trimStart] is empty or starts with a character
    that is not white space. *)
Lemma trimStart_head (s : jsstring) :
  match trimStart s with
  | [] => True
  | c :: _ => isWhiteSpace c = false
  end.
Proof.
  induction s as [|c s IH]; simpl; [exact I|].
  destruct (isWhiteSpace c) eqn:Hc; [exact IH | exact Hc].
Qed.

(** [s.trim() === ''] exactly when [s] holds white space only. *)
Lemma trim_empty (s : jsstring) :
  trim s = empty <-> forallb isWhiteSpace s = true.
Proof.
  unfold trim, trimEnd, empty. split.
  - intros H. apply trimStart_nil.
    apply (f_equal (@rev _)) in H. rewrite rev_involutive in H. simpl in H.
    apply trimStart_nil in H. rewrite forallb_forall in H.
    pose proof (trimStart_head s) as Hhead.
    destruct (trimStart s) as [|c r]; [reflexivity|].
    rewrite (H c) in Hhead; [discriminate|].
    apply in_rev. rewrite rev_involutive. now left.
  - intros H. apply trimStart_nil in H. now rewrite H.
Qed.

End JsStringFacts.

(** ** Streams *)

Section StreamFacts.

Variables A B : Type.
Variable g : A -> Controller B -> Controller B.

(** The callback only ever appends to the queue. *)
Hypothesis g_appends : forall a q, g a q = q ++ g a [].

Lemma fold_transformer (s : ReadableStream A) (q : Controller B) :
  fold_left
    (fun acc chunk => ts_transform (transformer g) chunk (fst acc) (snd acc))
    s (tt, q)
  = (tt, q ++ flat_map (fun a => g a []) s).
Proof.
  revert q; induction s as [|a s IH]; intros q; simpl.
  - now rewrite app_nil_r.
  - rewrite IH, (g_appends a q), <- app_assoc. reflexivity.
Qed.

Lemma pipeThrough_transformer (s : ReadableStream A) :
  pipeThrough s (transformer g) = flat_map (fun a => g a []) s.
Proof.
  unfold pipeThrough.
  change (ts_start (transformer g), @nil B) with (tt, @nil B).
  rewrite fold_transformer. reflexivity.
Qed.

Lemma pipeThrough_transformer_app (s1 s2 : ReadableStream A) :
  pipeThrough (s1 ++ s2) (transformer g)
  = pipeThrough s1 (transformer g) ++ pipeThrough s2 (transformer g).
Proof.
  rewrite !pipeThrough_transformer. apply flat_map_app.
Qed.

Lemma pipeThrough_transformer_cons (a : A) (s : ReadableStream A) :
  pipeThrough (a :: s) (transformer g)
  = g a [] ++ pipeThrough s (transformer g).
Proof.
  rewrite !pipeThrough_transformer. reflexivity.
Qed.

End StreamFacts.

(** ** The handlers *)

Section HandlerProperties.

Variables T Unknown ParseError ZodSchema : Type.
Variable parseJSON : jsstring -> ZodSchema -> Js T Unknown ParseError T.
Variable safeParseJSON : jsstring -> ZodSchema -> ParseResult T ParseError.
Variable TextDecoderStream : TransformStream (list Byte.byte) jsstring.
Variable EventSourceParserStream
  : TransformStream jsstring EventSource.ParsedEvent.

Implicit Types (u : jsstring) (rbv : Unknown).
Implicit Types (response : Response T Unknown ParseError).
Implicit Types (isRetryable : option (RetryPredicate T Unknown ParseError)).
Implicit Types (errorToMessage : T -> Js T Unknown ParseError jsstring).

(** The third stage of the streaming pipeline, on a sequence of events. *)
Local Abbreviation payloadDecoding chunkSchema events :=
  (pipeThrough events (transformer (transform safeParseJSON chunkSchema))).

(** The two platform stages, on a body. *)
Local Abbreviation framing stream :=
  (pipeThrough (pipeThrough stream TextDecoderStream) EventSourceParserStream).

Lemma optional_call_returns isRetryable response (error : option T) :
  (forall p, isRetryable = Some p -> exists b, p response error = Normal b) ->
  exists flag, optional_call isRetryable response error = Normal flag.
Proof.
  intros H. destruct isRetryable as [p|]; simpl.
  - destruct (H p eq_refl) as [b Hb]. rewrite Hb. simpl. eauto.
  - eauto.
Qed.

Lemma transform_appends chunkSchema (ev : EventSource.ParsedEvent)
  (q : Controller (ParsedChunk T ParseError)) :
  transform safeParseJSON chunkSchema ev q
  = q ++ transform safeParseJSON chunkSchema ev [].
Proof.
  unfold transform, enqueue.
  destruct (JsString.eqb (EventSource.data ev) DONE); simpl.
  - now rewrite app_nil_r.
  - reflexivity.
Qed.

Lemma transform_done chunkSchema (ev : EventSource.ParsedEvent) :
  EventSource.data ev = DONE ->
  transform safeParseJSON chunkSchema ev [] = [].
Proof.
  intros H. unfold transform. now rewrite H, JsStringFacts.eqb_refl.
Qed.

Lemma transform_value chunkSchema (ev : EventSource.ParsedEvent) (value : T) :
  EventSource.data ev <> DONE ->
  safeParseJSON (EventSource.data ev) chunkSchema = Success value ->
  transform safeParseJSON chunkSchema ev [] = [ValueChunk value].
Proof.
  intros Hd Hp. unfold transform.
  apply JsStringFacts.eqb_neq in Hd. now rewrite Hd, Hp.
Qed.

Lemma transform_error chunkSchema (ev : EventSource.ParsedEvent)
  (error : ParseError) :
  EventSource.data ev <> DONE ->
  safeParseJSON (EventSource.data ev) chunkSchema = Failure error ->
  transform safeParseJSON chunkSchema ev [] = [ErrorChunk error].
Proof.
  intros Hd Hp. unfold transform.
  apply JsStringFacts.eqb_neq in Hd. now rewrite Hd, Hp.
Qed.

Lemma payloadDecoding_values chunkSchema
  (events : list EventSource.ParsedEvent) (values : list T) :
  Forall2 (fun ev value =>
             EventSource.data ev <> DONE /\
             safeParseJSON (EventSource.data ev) chunkSchema = Success value)
          events values ->
  payloadDecoding chunkSchema events = map ValueChunk values.
Proof.
  induction 1 as [|ev value events values [Hd Hp] _ IH].
  - reflexivity.
  - rewrite pipeThrough_transformer_cons by apply transform_appends.
    rewrite (transform_value chunkSchema ev value Hd Hp), IH. reflexivity.
Qed.

(** C2. When the body text trims to the empty string, the error handler
    returns an error whose message is the status text, without decoded
    payload, and whose retryability flag is absent when no predicate was
    supplied and otherwise what the predicate returns on the response
    alone. *)
Theorem error_handler_empty_body
  (errorSchema : ZodSchema) errorToMessage u rbv response
  (responseBody : jsstring) :
  text response = Normal responseBody ->
  trim responseBody = empty ->
  settle (createJsonErrorResponseHandler parseJSON errorSchema
            errorToMessage None u rbv response)
  = Normal {| message := statusText response;
              url := u;
              requestBodyValues := rbv;
              statusCode := status response;
              responseBody := responseBody;
              cause := None;
              isRetryable := None;
              data := None |}
  /\
  forall (p : RetryPredicate T Unknown ParseError) (b : bool),
    p response None = Normal b ->
    settle (createJsonErrorResponseHandler parseJSON errorSchema
              errorToMessage (Some p) u rbv response)
    = Normal {| message := statusText response;
                url := u;
                requestBodyValues := rbv;
                statusCode := status response;
                responseBody := responseBody;
                cause := None;
                isRetryable := Some b;
                data := None |}.
Proof.
  intros Htext Htrim.
  unfold createJsonErrorResponseHandler; simpl.
  rewrite Htext, Htrim. simpl. split; [reflexivity|].
  intros p b Hp. now rewrite Hp.
Qed.

(** C3. When the body does not trim to the empty string and the strict
    decoder returns a payload, the error handler returns an error whose
    message is what the message-mapping function returns on the payload,
    with the payload attached, and whose retryability flag is what the
    predicate returns on the response and the payload (absent without a
    predicate). *)
Theorem error_handler_decoded_body
  (errorSchema : ZodSchema) errorToMessage u rbv response
  (responseBody : jsstring) (parsedError : T) (msg : jsstring) :
  text response = Normal responseBody ->
  trim responseBody <> empty ->
  parseJSON responseBody errorSchema = Normal parsedError ->
  errorToMessage parsedError = Normal msg ->
  settle (createJsonErrorResponseHandler parseJSON errorSchema
            errorToMessage None u rbv response)
  = Normal {| message := msg;
              url := u;
              requestBodyValues := rbv;
              statusCode := status response;
              responseBody := responseBody;
              cause := None;
              isRetryable := None;
              data := Some parsedError |}
  /\
  forall (p : RetryPredicate T Unknown ParseError) (b : bool),
    p response (Some parsedError) = Normal b ->
    settle (createJsonErrorResponseHandler parseJSON errorSchema
              errorToMessage (Some p) u rbv response)
    = Normal {| message := msg;
                url := u;
                requestBodyValues := rbv;
                statusCode := status response;
                responseBody := responseBody;
                cause := None;
                isRetryable := Some b;
                data := Some parsedError |}.
Proof.
  intros Htext Htrim Hparse Hmsg.
  apply JsStringFacts.eqb_neq in Htrim.
  unfold createJsonErrorResponseHandler; simpl.
  rewrite Htext, Htrim, Hparse. simpl. rewrite Hmsg. simpl.
  split; [reflexivity|].
  intros p b Hp. now rewrite Hp.
Qed.

(** C4. When the strict decoder throws on the body text (the text is not
    JSON or does not match the schema), the error handler returns the
    error of the empty-body case: status text as message, no decoded
    payload, retryability from the predicate on the response alone; the
    raw body text is kept as it is. *)
Theorem error_handler_undecodable_body
  (errorSchema : ZodSchema) errorToMessage u rbv response
  (responseBody : jsstring) (parseError : Thrown T Unknown ParseError) :
  text response = Normal responseBody ->
  parseJSON responseBody errorSchema = Throw parseError ->
  settle (createJsonErrorResponseHandler parseJSON errorSchema
            errorToMessage None u rbv response)
  = Normal {| message := statusText response;
              url := u;
              requestBodyValues := rbv;
              statusCode := status response;
              responseBody := responseBody;
              cause := None;
              isRetryable := None;
              data := None |}
  /\
  forall (p : RetryPredicate T Unknown ParseError) (b : bool),
    p response None = Normal b ->
    settle (createJsonErrorResponseHandler parseJSON errorSchema
              errorToMessage (Some p) u rbv response)
    = Normal {| message := statusText response;
                url := u;
                requestBodyValues := rbv;
                statusCode := status response;
                responseBody := responseBody;
                cause := None;
                isRetryable := Some b;
                data := None |}.
Proof.
  intros Htext Hparse.
  unfold createJsonErrorResponseHandler; simpl.
  rewrite Htext.
  destruct (JsString.eqb (trim responseBody) empty);
    [|rewrite Hparse]; simpl;
    (split; [reflexivity|]); intros p b Hp; now rewrite Hp.
Qed.

(** C1, amended. When the body text can be read and the retryability
    predicate, if one was supplied, returns on the response alone, the
    error handler returns an error and does not throw: whether the body
    is empty, is not JSON or fails the schema, and whether or not the
    message-mapping function or the predicate applied to the response
    and the payload throws. *)
Theorem error_handler_returns
  (errorSchema : ZodSchema) errorToMessage isRetryable u rbv response
  (responseBody : jsstring) :
  text response = Normal responseBody ->
  (forall p, isRetryable = Some p -> exists b, p response None = Normal b) ->
  exists e,
    settle (createJsonErrorResponseHandler parseJSON errorSchema
              errorToMessage isRetryable u rbv response)
    = Normal e.
Proof.
  intros Htext Hretry.
  destruct (optional_call_returns isRetryable response None Hretry)
    as [flag Hflag].
  unfold createJsonErrorResponseHandler; simpl. rewrite Htext.
  destruct (JsString.eqb (trim responseBody) empty).
  - rewrite Hflag. simpl. eauto.
  - destruct (parseJSON responseBody errorSchema) as [parsedError|t]; simpl.
    + destruct (errorToMessage parsedError) as [msg|t]; simpl.
      * destruct (optional_call isRetryable response (Some parsedError))
          as [flag'|t]; simpl.
        -- eauto.
        -- rewrite Hflag. simpl. eauto.
      * rewrite Hflag. simpl. eauto.
    + rewrite Hflag. simpl. eauto.
Qed.

(** C5. Whatever branch produced it, the error the error handler returns
    carries the URL, the request body values, the status code of the
    response and the whole body text that was read. *)
Theorem error_handler_context
  (errorSchema : ZodSchema) errorToMessage isRetryable u rbv response
  (e : ApiCallError T Unknown ParseError) :
  settle (createJsonErrorResponseHandler parseJSON errorSchema
            errorToMessage isRetryable u rbv response)
  = Normal e ->
  url e = u /\
  requestBodyValues e = rbv /\
  statusCode e = status response /\
  text response = Normal (responseBody e).
Proof.
  unfold createJsonErrorResponseHandler; simpl.
  destruct (text response) as [responseBody|t]; [|discriminate].
  destruct (JsString.eqb (trim responseBody) empty).
  - destruct (optional_call isRetryable response None) as [flag|t]; simpl;
      [|discriminate].
    intros [= <-]. simpl. auto.
  - destruct (parseJSON responseBody errorSchema) as [parsedError|t]; simpl.
    + destruct (errorToMessage parsedError) as [msg|t]; simpl.
      * destruct (optional_call isRetryable response (Some parsedError))
          as [flag'|t]; simpl.
        -- intros [= <-]. simpl. auto.
        -- destruct (optional_call isRetryable response None) as [flag|t'];
             simpl; [|discriminate].
           intros [= <-]. simpl. auto.
      * destruct (optional_call isRetryable response None) as [flag|t'];
          simpl; [|discriminate].
        intros [= <-]. simpl. auto.
    + destruct (optional_call isRetryable response None) as [flag|t'];
        simpl; [|discriminate].
      intros [= <-]. simpl. auto.
Qed.

(** C6. When the response has no body, the streaming handler has thrown
    by the time the call returns: its promise is rejected without any
    suspension, and no stream, hence no chunk, is produced. *)
Theorem event_source_handler_no_body
  (chunkSchema : ZodSchema) u rbv response :
  body response = None ->
  createEventSourceResponseHandler safeParseJSON TextDecoderStream
    EventSourceParserStream chunkSchema u rbv response
  = Settled (Throw (JsError (lit "No response body")))
  /\
  forall chunks,
    settle (createEventSourceResponseHandler safeParseJSON TextDecoderStream
              EventSourceParserStream chunkSchema u rbv response)
    <> Normal chunks.
Proof.
  intros Hbody. unfold createEventSourceResponseHandler. rewrite Hbody.
  split; [reflexivity|]. intros chunks. simpl. discriminate.
Qed.

(** C7. When the body frames into N events whose data decodes against
    the chunk schema, followed by one event whose data is [[DONE]], the
    streaming handler returns exactly N chunks: the decoded values,
    success-tagged, in the order of their events.  The N events are data
    events: none of them is the [[DONE]] marker itself. *)
Theorem event_source_handler_done_terminated
  (chunkSchema : ZodSchema) u rbv response
  (stream : ReadableStream (list Byte.byte))
  (events : list EventSource.ParsedEvent) (done : EventSource.ParsedEvent)
  (values : list T) :
  body response = Some stream ->
  framing stream = events ++ [done] ->
  EventSource.data done = DONE ->
  Forall2 (fun ev value =>
             EventSource.data ev <> DONE /\
             safeParseJSON (EventSource.data ev) chunkSchema = Success value)
          events values ->
  settle (createEventSourceResponseHandler safeParseJSON TextDecoderStream
            EventSourceParserStream chunkSchema u rbv response)
  = Normal (map ValueChunk values)
  /\ List.length (map (@ValueChunk T ParseError) values) = List.length events.
Proof.
  intros Hbody Hframes Hdone Hvalues.
  unfold createEventSourceResponseHandler. rewrite Hbody. simpl.
  rewrite Hframes.
  rewrite pipeThrough_transformer_app by apply transform_appends.
  rewrite (payloadDecoding_values chunkSchema events values Hvalues).
  rewrite pipeThrough_transformer_cons by apply transform_appends.
  rewrite (transform_done chunkSchema done Hdone). simpl.
  rewrite app_nil_r. split; [reflexivity|].
  rewrite List.length_map. symmetry. exact (Forall2_length Hvalues).
Qed.

(** C8. Every event whose data is not [[DONE]] yields exactly one chunk,
    at its place between the chunks of the events before it and those of
    the events after it: success-tagged with the value when its data
    decodes, failure-tagged with the parse error otherwise.  The handler
    returns (it does not throw), and whatever came before, every later
    event that decodes still has its success-tagged chunk in the
    output. *)
Theorem event_source_handler_one_chunk_per_event
  (chunkSchema : ZodSchema) u rbv response
  (stream : ReadableStream (list Byte.byte))
  (pre post : list EventSource.ParsedEvent) (ev : EventSource.ParsedEvent) :
  body response = Some stream ->
  framing stream = pre ++ ev :: post ->
  EventSource.data ev <> DONE ->
  exists chunk,
    settle (createEventSourceResponseHandler safeParseJSON TextDecoderStream
              EventSourceParserStream chunkSchema u rbv response)
    = Normal (payloadDecoding chunkSchema pre
              ++ chunk :: payloadDecoding chunkSchema post)
    /\ match safeParseJSON (EventSource.data ev) chunkSchema with
       | Success value => chunk = ValueChunk value
       | Failure error => chunk = ErrorChunk error
       end
    /\ forall later value,
         In later post ->
         EventSource.data later <> DONE ->
         safeParseJSON (EventSource.data later) chunkSchema = Success value ->
         In (ValueChunk value) (payloadDecoding chunkSchema post).
Proof.
  intros Hbody Hframes Hdata.
  exists (match safeParseJSON (EventSource.data ev) chunkSchema with
          | Success value => ValueChunk value
          | Failure error => ErrorChunk error
          end).
  split; [|split].
  - unfold createEventSourceResponseHandler. rewrite Hbody. simpl.
    rewrite Hframes.
    rewrite pipeThrough_transformer_app by apply transform_appends.
    rewrite pipeThrough_transformer_cons by apply transform_appends.
    destruct (safeParseJSON (EventSource.data ev) chunkSchema)
      as [value|error] eqn:Hp.
    + now rewrite (transform_value chunkSchema ev value Hdata Hp).
    + now rewrite (transform_error chunkSchema ev error Hdata Hp).
  - destruct (safeParseJSON (EventSource.data ev) chunkSchema); reflexivity.
  - intros later value Hin Hd Hp.
    rewrite pipeThrough_transformer by apply transform_appends.
    apply in_flat_map. exists later. split; [exact Hin|].
    rewrite (transform_value chunkSchema later value Hd Hp). now left.
Qed.

(** C9. Given the body text, the whole-body handler returns the value
    when the tolerant decoder succeeds, and otherwise throws an
    [ApiCallError] with message ['Invalid JSON response'], the decoder's
    error as cause, the status code of the response and the raw body
    text (and the URL and request body values of the call). *)
Theorem json_handler_result
  (responseSchema : ZodSchema) u rbv response (responseBody : jsstring) :
  text response = Normal responseBody ->
  (forall value,
     safeParseJSON responseBody responseSchema = Success value ->
     settle (createJsonResponseHandler safeParseJSON responseSchema
               u rbv response)
     = Normal value)
  /\
  (forall error,
     safeParseJSON responseBody responseSchema = Failure error ->
     settle (createJsonResponseHandler safeParseJSON responseSchema
               u rbv response)
     = Throw (ThrownApiCallError
                {| message := lit "Invalid JSON response";
                   url := u;
                   requestBodyValues := rbv;
                   statusCode := status response;
                   responseBody := responseBody;
                   cause := Some error;
                   isRetryable := None;
                   data := None |})).
Proof.
  intros Htext.
  unfold createJsonResponseHandler; simpl. rewrite Htext.
  split; intros x Hx; now rewrite Hx.
Qed.

(** C10. The streaming handler does not look at the URL or at the
    request body values: two calls on the same response give the same
    result whatever these two arguments are. *)
Theorem event_source_handler_ignores_request
  (chunkSchema : ZodSchema) u1 u2 rbv1 rbv2 response :
  createEventSourceResponseHandler safeParseJSON TextDecoderStream
    EventSourceParserStream chunkSchema u1 rbv1 response
  = createEventSourceResponseHandler safeParseJSON TextDecoderStream
      EventSourceParserStream chunkSchema u2 rbv2 response.
Proof.
  reflexivity.
Qed.

End HandlerProperties.

(** ** The handlers on concrete responses *)

Section Scenarios.

Import Example.

Local Abbreviation errorHandler :=
  (createJsonErrorResponseHandler parseJSON errorSchema).

Local Abbreviation eventSourceHandler :=
  (createEventSourceResponseHandler safeParseJSON textDecoderStream
     eventSourceParserStream chunkSchema).

Local Abbreviation jsonHandler :=
  (createJsonResponseHandler safeParseJSON chunkSchema).

(** C1 as stated fails.  With an empty body, and with a body that is not
    JSON, a predicate that throws on the response alone makes the handler
    throw; so does a body that cannot be read.  Hence the handler does
    not return an error for every response and every predicate. *)
Lemma error_handler_can_raise :
  settle (errorHandler errorToMessage (Some retryThrows)
            sampleUrl sampleRequest response500)
  = Throw (ThrownValue (lit "predicate failed"))
  /\
  settle (errorHandler errorToMessage (Some retryThrows)
            sampleUrl sampleRequest response502)
  = Throw (ThrownValue (lit "predicate failed"))
  /\
  settle (errorHandler errorToMessage None
            sampleUrl sampleRequest responseUnreadable)
  = Throw (ThrownValue (lit "TypeError: Body is unusable"))
  /\
  ~ (forall (T Unknown ParseError ZodSchema : Type)
       (parseJSON : jsstring -> ZodSchema -> Js T Unknown ParseError T)
       (errorSchema : ZodSchema)
       (errorToMessage : T -> Js T Unknown ParseError jsstring)
       (isRetryable : option (RetryPredicate T Unknown ParseError))
       (u : jsstring) (rbv : Unknown)
       (response : Response T Unknown ParseError),
     exists e,
       settle (createJsonErrorResponseHandler parseJSON errorSchema
                 errorToMessage isRetryable u rbv response)
       = Normal e).
Proof.
  repeat split; try reflexivity.
  intros H.
  destruct (H _ _ _ _ parseJSON errorSchema errorToMessage (Some retryThrows)
              sampleUrl sampleRequest response500) as [e He].
  discriminate He.
Qed.

(** The message-mapping function throws on the decoded payload; the
    handler still returns. *)
Lemma error_handler_returns_witness :
  exists e,
    settle (errorHandler errorToMessageThrows (Some retryOn429)
              sampleUrl sampleRequest response429)
    = Normal e.
Proof.
  apply (error_handler_returns _ _ _ _ parseJSON errorSchema
           errorToMessageThrows (Some retryOn429) sampleUrl sampleRequest
           response429 rateLimitedBody).
  - reflexivity.
  - intros p [= <-]. exists true. reflexivity.
Defined.

(** Status 500 with a body of white space. *)
Lemma error_handler_empty_body_witness :
  settle (errorHandler errorToMessage None
            sampleUrl sampleRequest response500)
  = Normal {| message := lit "Internal Server Error";
              url := sampleUrl;
              requestBodyValues := sampleRequest;
              statusCode := 500%N;
              responseBody := lit "  " ++ [LF];
              cause := None;
              isRetryable := None;
              data := None |}
  /\
  settle (errorHandler errorToMessage (Some retryOn429)
            sampleUrl sampleRequest response500)
  = Normal {| message := lit "Internal Server Error";
              url := sampleUrl;
              requestBodyValues := sampleRequest;
              statusCode := 500%N;
              responseBody := lit "  " ++ [LF];
              cause := None;
              isRetryable := Some false;
              data := None |}.
Proof.
  destruct (error_handler_empty_body _ _ _ _ parseJSON errorSchema
              errorToMessage sampleUrl sampleRequest response500
              (lit "  " ++ [LF]) eq_refl eq_refl) as [Hnone Hsome].
  split.
  - exact Hnone.
  - exact (Hsome retryOn429 false eq_refl).
Defined.

(** Status 429 with the body [{"error":"rate limited"}]: the message is
    the [error] field and the error is retryable. *)
Lemma error_handler_decoded_body_witness :
  settle (errorHandler errorToMessage (Some retryOn429)
            sampleUrl sampleRequest response429)
  = Normal {| message := lit "rate limited";
              url := sampleUrl;
              requestBodyValues := sampleRequest;
              statusCode := 429%N;
              responseBody := rateLimitedBody;
              cause := None;
              isRetryable := Some true;
              data := Some (JStr (lit "rate limited")) |}.
Proof.
  refine (proj2 (error_handler_decoded_body _ _ _ _ parseJSON errorSchema
                   errorToMessage sampleUrl sampleRequest response429
                   rateLimitedBody (JStr (lit "rate limited"))
                   (lit "rate limited") eq_refl _ eq_refl eq_refl)
            retryOn429 true eq_refl).
  intros H. discriminate H.
Defined.

(** Status 502 with an HTML body. *)
Lemma error_handler_undecodable_body_witness :
  settle (errorHandler errorToMessage (Some retryOn429)
            sampleUrl sampleRequest response502)
  = Normal {| message := lit "Bad Gateway";
              url := sampleUrl;
              requestBodyValues := sampleRequest;
              statusCode := 502%N;
              responseBody := lit "<html>Bad Gateway</html>";
              cause := None;
              isRetryable := Some false;
              data := None |}.
Proof.
  exact (proj2 (error_handler_undecodable_body _ _ _ _ parseJSON errorSchema
                   errorToMessage sampleUrl sampleRequest response502
                   (lit "<html>Bad Gateway</html>")
                   (ThrownValue (lit "<html>Bad Gateway</html>"))
                   eq_refl eq_refl)
            retryOn429 false eq_refl).
Defined.

Lemma error_handler_context_witness :
  url rateLimitedError = sampleUrl
  /\ requestBodyValues rateLimitedError = sampleRequest
  /\ statusCode rateLimitedError = status response429
  /\ text response429 = Normal (responseBody rateLimitedError).
Proof.
  exact (error_handler_context _ _ _ _ parseJSON errorSchema errorToMessage
           (Some retryOn429) sampleUrl sampleRequest response429
           rateLimitedError eq_refl).
Defined.

Lemma event_source_handler_no_body_witness :
  eventSourceHandler sampleUrl sampleRequest response200
  = Settled (Throw (JsError (lit "No response body"))).
Proof.
  exact (proj1 (event_source_handler_no_body _ _ _ _ safeParseJSON
                  textDecoderStream eventSourceParserStream chunkSchema
                  sampleUrl sampleRequest response200 eq_refl)).
Defined.

(** The body [data: {"v":1}], blank line, [data: [DONE]], blank line,
    delivered in two byte chunks: one success-tagged chunk. *)
Lemma event_source_handler_done_terminated_witness :
  settle (eventSourceHandler sampleUrl sampleRequest responseStream)
  = Normal [ValueChunk (JNum 1)]
  /\ List.length [@ValueChunk JsonValue jsstring (JNum 1)]
     = List.length [eventOf v1Body].
Proof.
  apply (event_source_handler_done_terminated _ _ _ _ safeParseJSON
           textDecoderStream eventSourceParserStream chunkSchema
           sampleUrl sampleRequest responseStream
           [toBytes (firstn 10 streamText); toBytes (skipn 10 streamText)]
           [eventOf v1Body] (eventOf DONE) [JNum 1]).
  - reflexivity.
  - reflexivity.
  - reflexivity.
  - constructor; [|constructor].
    split; [intros H; discriminate H | reflexivity].
Defined.

(** An event that does not decode, then one that does: the first gives a
    failure-tagged chunk and the second still gives its value. *)
Lemma event_source_handler_one_chunk_per_event_witness :
  exists chunk,
    settle (eventSourceHandler sampleUrl sampleRequest responseMixedStream)
    = Normal (pipeThrough []
                (transformer (transform safeParseJSON chunkSchema))
              ++ chunk
                 :: pipeThrough [eventOf v1Body]
                      (transformer (transform safeParseJSON chunkSchema)))
    /\ match safeParseJSON (EventSource.data (eventOf (lit "oops")))
               chunkSchema with
       | Success value => chunk = ValueChunk value
       | Failure error => chunk = ErrorChunk error
       end
    /\ forall later value,
         In later [eventOf v1Body] ->
         EventSource.data later <> DONE ->
         safeParseJSON (EventSource.data later) chunkSchema = Success value ->
         In (ValueChunk value)
            (pipeThrough [eventOf v1Body]
               (transformer (transform safeParseJSON chunkSchema))).
Proof.
  apply (event_source_handler_one_chunk_per_event _ _ _ _ safeParseJSON
           textDecoderStream eventSourceParserStream chunkSchema
           sampleUrl sampleRequest responseMixedStream
           [toBytes mixedStreamText] [] [eventOf v1Body]
           (eventOf (lit "oops"))).
  - reflexivity.
  - reflexivity.
  - intros H. discriminate H.
Defined.

(** A body of the schema's shape gives its value; an HTML body gives the
    [ApiCallError]. *)
Lemma json_handler_result_witness :
  settle (jsonHandler sampleUrl sampleRequest response200) = Normal (JNum 1)
  /\
  settle (jsonHandler sampleUrl sampleRequest response502)
  = Throw (ThrownApiCallError
             {| message := lit "Invalid JSON response";
                url := sampleUrl;
                requestBodyValues := sampleRequest;
                statusCode := 502%N;
                responseBody := lit "<html>Bad Gateway</html>";
                cause := Some (lit "<html>Bad Gateway</html>");
                isRetryable := None;
                data := None |}).
Proof.
  split.
  - exact (proj1 (json_handler_result _ _ _ _ safeParseJSON chunkSchema
                    sampleUrl sampleRequest response200 v1Body eq_refl)
             (JNum 1) eq_refl).
  - exact (proj2 (json_handler_result _ _ _ _ safeParseJSON chunkSchema
                    sampleUrl sampleRequest response502
                    (lit "<html>Bad Gateway</html>") eq_refl)
             (lit "<html>Bad Gateway</html>") eq_refl).
Defined.

(** C9 as stated fails.  When the body cannot be read, the whole-body
    handler passes on the rejection of [text()]: it neither returns a
    value nor throws an [ApiCallError].  Hence it is not the case that
    for every response the handler returns a value or throws the
    ['Invalid JSON response'] error. *)
Lemma json_handler_can_pass_on_rejection :
  settle (jsonHandler sampleUrl sampleRequest responseUnreadable)
  = Throw (ThrownValue (lit "TypeError: Body is unusable"))
  /\
  (forall value,
     settle (jsonHandler sampleUrl sampleRequest responseUnreadable)
     <> Normal value)
  /\
  (forall e,
     settle (jsonHandler sampleUrl sampleRequest responseUnreadable)
     <> Throw (ThrownApiCallError e))
  /\
  ~ (forall (T Unknown ParseError ZodSchema : Type)
       (safeParseJSON : jsstring -> ZodSchema -> ParseResult T ParseError)
       (responseSchema : ZodSchema) (u : jsstring) (rbv : Unknown)
       (response : Response T Unknown ParseError),
     (exists value,
        settle (createJsonResponseHandler safeParseJSON responseSchema
                  u rbv response)
        = Normal value)
     \/
     (exists e,
        settle (createJsonResponseHandler safeParseJSON responseSchema
                  u rbv response)
        = Throw (ThrownApiCallError e)
        /\ message e = lit "Invalid JSON response")).
Proof.
  split; [reflexivity|].
  split; [intros value H; discriminate H|].
  split; [intros e H; discriminate H|].
  intros H.
  destruct (H _ _ _ _ safeParseJSON chunkSchema sampleUrl sampleRequest
              responseUnreadable) as [[value Hv]|[e [He _]]].
  - discriminate Hv.
  - discriminate He.
Qed.

End Scenarios.

(** ** Further behaviour of the handlers *)

Section HandlerBehaviour.

Variables T Unknown ParseError ZodSchema : Type.
Variables parseJSON parseJSON'
  : jsstring -> ZodSchema -> Js T Unknown ParseError T.
Variable safeParseJSON : jsstring -> ZodSchema -> ParseResult T ParseError.
Variable TextDecoderStream : TransformStream (list Byte.byte) jsstring.
Variable EventSourceParserStream
  : TransformStream jsstring EventSource.ParsedEvent.

Implicit Types (u : jsstring) (rbv : Unknown).
Implicit Types (response : Response T Unknown ParseError).
Implicit Types (isRetryable : option (RetryPredicate T Unknown ParseError)).
Implicit Types (errorToMessage : T -> Js T Unknown ParseError jsstring).

Local Abbreviation payloadDecoding chunkSchema events :=
  (pipeThrough events (transformer (transform safeParseJSON chunkSchema))).

Local Abbreviation framing stream :=
  (pipeThrough (pipeThrough stream TextDecoderStream) EventSourceParserStream).

(** The event is a data event, not the [[DONE]] marker. *)
Local Abbreviation notDone :=
  (fun ev => negb (JsString.eqb (EventSource.data ev) DONE)).

Lemma optional_call_inv isRetryable response (error : option T)
  (flag : option bool) :
  optional_call isRetryable response error = Normal flag ->
  match isRetryable with
  | None => flag = None
  | Some p => exists b, p response error = Normal b /\ flag = Some b
  end.
Proof.
  destruct isRetryable as [p|]; simpl.
  - destruct (p response error) as [b|t]; simpl; [|discriminate].
    intros [= <-]. eauto.
  - now intros [= <-].
Qed.

Lemma optional_call_throws isRetryable response (error : option T)
  (t : Thrown T Unknown ParseError) :
  optional_call isRetryable response error = Throw t ->
  exists p, isRetryable = Some p /\ p response error = Throw t.
Proof.
  destruct isRetryable as [p|]; simpl; [|discriminate].
  destruct (p response error) as [b|t'] eqn:Hp; simpl; [discriminate|].
  intros [= <-]. eauto.
Qed.

(** Splits the error handler into its paths: the body read, the test on
    the trimmed text, the strict decoder and the two callbacks. *)
Ltac error_handler_paths response :=
  let responseBody := fresh "responseBody" in
  unfold createJsonErrorResponseHandler; simpl;
  destruct (text response) as [responseBody|?] eqn:?; simpl;
  [destruct (JsString.eqb (trim responseBody) empty) eqn:?; simpl;
   [|destruct (parseJSON responseBody _) as [?|?] eqn:?; simpl;
     [match goal with
      | |- context [bind ?c _] =>
          destruct c as [?|?] eqn:?; simpl
      end;
      [destruct (optional_call _ response (Some _)) as [?|?] eqn:?; simpl|]|]]
  |].

(** X1. When the message-mapping function throws on the decoded payload,
    the handler swallows the exception and returns the status-text error
    without the payload, provided the predicate returns on the response
    alone. *)
Theorem error_handler_mapper_throws
  (errorSchema : ZodSchema) errorToMessage isRetryable u rbv response
  (responseBody : jsstring) (parsedError : T)
  (t : Thrown T Unknown ParseError) (flag : option bool) :
  text response = Normal responseBody ->
  trim responseBody <> empty ->
  parseJSON responseBody errorSchema = Normal parsedError ->
  errorToMessage parsedError = Throw t ->
  optional_call isRetryable response None = Normal flag ->
  settle (createJsonErrorResponseHandler parseJSON errorSchema
            errorToMessage isRetryable u rbv response)
  = Normal {| message := statusText response;
              url := u;
              requestBodyValues := rbv;
              statusCode := status response;
              responseBody := responseBody;
              cause := None;
              isRetryable := flag;
              data := None |}.
Proof.
  intros Htext Htrim Hparse Hmsg Hflag.
  apply JsStringFacts.eqb_neq in Htrim.
  unfold createJsonErrorResponseHandler; simpl.
  rewrite Htext, Htrim, Hparse. simpl. rewrite Hmsg. simpl.
  now rewrite Hflag.
Qed.

(** X2. When the predicate throws on the response and the payload but
    returns on the response alone, the handler returns the status-text
    error without the payload, with the flag of the second call. *)
Theorem error_handler_predicate_throws_on_payload
  (errorSchema : ZodSchema) errorToMessage
  (p : RetryPredicate T Unknown ParseError) u rbv response
  (responseBody : jsstring) (parsedError : T) (msg : jsstring)
  (t : Thrown T Unknown ParseError) (b : bool) :
  text response = Normal responseBody ->
  trim responseBody <> empty ->
  parseJSON responseBody errorSchema = Normal parsedError ->
  errorToMessage parsedError = Normal msg ->
  p response (Some parsedError) = Throw t ->
  p response None = Normal b ->
  settle (createJsonErrorResponseHandler parseJSON errorSchema
            errorToMessage (Some p) u rbv response)
  = Normal {| message := statusText response;
              url := u;
              requestBodyValues := rbv;
              statusCode := status response;
              responseBody := responseBody;
              cause := None;
              isRetryable := Some b;
              data := None |}.
Proof.
  intros Htext Htrim Hparse Hmsg Hpair Halone.
  apply JsStringFacts.eqb_neq in Htrim.
  unfold createJsonErrorResponseHandler; simpl.
  rewrite Htext, Htrim, Hparse. simpl. rewrite Hmsg. simpl.
  rewrite Hpair. simpl. now rewrite Halone.
Qed.

(** X3. Whatever the error handler throws is the rejection of the body
    read or what the predicate threw on the response alone; an exception
    of the strict decoder or of the message-mapping function never
    escapes. *)
Theorem error_handler_throw_origin
  (errorSchema : ZodSchema) errorToMessage isRetryable u rbv response
  (t : Thrown T Unknown ParseError) :
  settle (createJsonErrorResponseHandler parseJSON errorSchema
            errorToMessage isRetryable u rbv response)
  = Throw t ->
  text response = Throw t \/
  exists p, isRetryable = Some p /\ p response None = Throw t.
Proof.
  error_handler_paths response;
    try discriminate;
    try (intros [= <-]; now left);
    repeat match goal with
    | |- context [optional_call isRetryable response None] =>
        destruct (optional_call isRetryable response None) eqn:?; simpl
    end;
    try discriminate;
    intros [= <-]; right; now apply optional_call_throws.
Qed.

(** X4. The error the handler returns never has a cause.  When it carries
    a payload, the body did not trim to the empty string, the payload is
    what the strict decoder returned on the body text and the message is
    what the message-mapping function returned on it; when it carries
    none, the message is the status text. *)
Theorem error_handler_payload_provenance
  (errorSchema : ZodSchema) errorToMessage isRetryable u rbv response
  (e : ApiCallError T Unknown ParseError) :
  settle (createJsonErrorResponseHandler parseJSON errorSchema
            errorToMessage isRetryable u rbv response)
  = Normal e ->
  cause e = None /\
  match data e with
  | Some payload =>
      trim (responseBody e) <> empty /\
      parseJSON (responseBody e) errorSchema = Normal payload /\
      errorToMessage payload = Normal (message e)
  | None => message e = statusText response
  end.
Proof.
  error_handler_paths response;
    try discriminate;
    repeat match goal with
    | |- context [optional_call isRetryable response None] =>
        destruct (optional_call isRetryable response None) eqn:?; simpl
    end;
    try discriminate;
    intros [= <-]; simpl; split; try reflexivity.
  repeat split; try assumption.
  now apply JsStringFacts.eqb_neq.
Qed.

(** X5. The retryability flag of the returned error is absent exactly
    when no predicate was supplied; with a predicate it is the
    predicate's result on the response and on exactly the payload the
    error carries (none in the status-text error). *)
Theorem error_handler_flag_verdict
  (errorSchema : ZodSchema) errorToMessage
  (retry : option (RetryPredicate T Unknown ParseError)) u rbv response
  (e : ApiCallError T Unknown ParseError) :
  settle (createJsonErrorResponseHandler parseJSON errorSchema
            errorToMessage retry u rbv response)
  = Normal e ->
  match retry with
  | None => isRetryable e = None
  | Some p =>
      exists b, p response (data e) = Normal b /\
                isRetryable e = Some b
  end.
Proof.
  error_handler_paths response;
    try discriminate;
    repeat match goal with
    | |- context [optional_call retry response None] =>
        destruct (optional_call retry response None) eqn:?; simpl
    end;
    try discriminate;
    intros [= <-]; simpl;
    match goal with
    | H : optional_call retry response ?err = Normal ?flag |- _ =>
        exact (optional_call_inv retry response err flag H)
    end.
Qed.

(** X6. A body of white space only (spaces, line breaks, no-break spaces,
    a byte-order mark) is handled as an empty one: the strict decoder,
    the schema and the message-mapping function have no influence on the
    outcome. *)
Theorem error_handler_blank_body_skips_decoder
  (errorSchema errorSchema' : ZodSchema) errorToMessage errorToMessage'
  isRetryable u rbv response (responseBody : jsstring) :
  text response = Normal responseBody ->
  forallb isWhiteSpace responseBody = true ->
  settle (createJsonErrorResponseHandler parseJSON errorSchema
            errorToMessage isRetryable u rbv response)
  = settle (createJsonErrorResponseHandler parseJSON' errorSchema'
              errorToMessage' isRetryable u rbv response).
Proof.
  intros Htext Hblank.
  apply JsStringFacts.trim_empty in Hblank.
  unfold createJsonErrorResponseHandler; simpl.
  rewrite Htext, Hblank. reflexivity.
Qed.

(** X7. A value the whole-body handler returns is one the tolerant
    decoder validated on the body text that was read. *)
Theorem json_handler_value_origin
  (responseSchema : ZodSchema) u rbv response (value : T) :
  settle (createJsonResponseHandler safeParseJSON responseSchema
            u rbv response)
  = Normal value ->
  exists responseBody,
    text response = Normal responseBody /\
    safeParseJSON responseBody responseSchema = Success value.
Proof.
  unfold createJsonResponseHandler; simpl.
  destruct (text response) as [responseBody|t]; [|discriminate].
  destruct (safeParseJSON responseBody responseSchema) as [v|err] eqn:Hp;
    simpl; [|discriminate].
  intros [= <-]. eauto.
Qed.

(** X8. What the whole-body handler throws is the rejection of the body
    read, passed on as it is, or the [ApiCallError] built from a failure
    of the tolerant decoder, which has neither payload nor retryability
    flag. *)
Theorem json_handler_throw_origin
  (responseSchema : ZodSchema) u rbv response
  (t : Thrown T Unknown ParseError) :
  settle (createJsonResponseHandler safeParseJSON responseSchema
            u rbv response)
  = Throw t ->
  text response = Throw t \/
  exists responseBody error,
    text response = Normal responseBody /\
    safeParseJSON responseBody responseSchema = Failure error /\
    t = ThrownApiCallError
          {| message := lit "Invalid JSON response";
             url := u;
             requestBodyValues := rbv;
             statusCode := status response;
             responseBody := responseBody;
             cause := Some error;
             isRetryable := None;
             data := None |}.
Proof.
  unfold createJsonResponseHandler; simpl.
  destruct (text response) as [responseBody|t'].
  - destruct (safeParseJSON responseBody responseSchema) as [v|err] eqn:Hp;
      simpl; [discriminate|].
    intros [= <-]. right. eauto.
  - intros [= <-]. now left.
Qed.

Lemma payloadDecoding_flat_map chunkSchema
  (events : list EventSource.ParsedEvent) :
  payloadDecoding chunkSchema events
  = flat_map (fun ev => transform safeParseJSON chunkSchema ev []) events.
Proof.
  apply pipeThrough_transformer. intros ev q. unfold transform, enqueue.
  destruct (JsString.eqb (EventSource.data ev) DONE); simpl.
  - now rewrite app_nil_r.
  - reflexivity.
Qed.

Lemma payloadDecoding_app chunkSchema
  (events1 events2 : list EventSource.ParsedEvent) :
  payloadDecoding chunkSchema (events1 ++ events2)
  = payloadDecoding chunkSchema events1
    ++ payloadDecoding chunkSchema events2.
Proof.
  rewrite !payloadDecoding_flat_map. apply flat_map_app.
Qed.

Lemma transform_skips_done chunkSchema (ev : EventSource.ParsedEvent) :
  EventSource.data ev = DONE ->
  transform safeParseJSON chunkSchema ev [] = [].
Proof.
  intros H. unfold transform. now rewrite H, JsStringFacts.eqb_refl.
Qed.

(** X9. A [[DONE]] event is skipped, it does not end the stream: the
    events that arrive after it are decoded like the ones before it. *)
Theorem event_source_handler_done_not_terminal
  (chunkSchema : ZodSchema) u rbv response
  (stream : ReadableStream (list Byte.byte))
  (pre post : list EventSource.ParsedEvent) (done : EventSource.ParsedEvent) :
  body response = Some stream ->
  framing stream = pre ++ done :: post ->
  EventSource.data done = DONE ->
  settle (createEventSourceResponseHandler safeParseJSON TextDecoderStream
            EventSourceParserStream chunkSchema u rbv response)
  = Normal (payloadDecoding chunkSchema pre
            ++ payloadDecoding chunkSchema post).
Proof.
  intros Hbody Hframes Hdone.
  unfold createEventSourceResponseHandler. rewrite Hbody. simpl.
  rewrite Hframes, payloadDecoding_app.
  change (done :: post) with ([done] ++ post).
  rewrite payloadDecoding_app.
  rewrite (payloadDecoding_flat_map chunkSchema [done]). simpl.
  now rewrite (transform_skips_done chunkSchema done Hdone).
Qed.

(** X10. With a body, the streaming handler returns, and its chunks are
    those of the events that are not [[DONE]], one for one and in order:
    the value when the data decodes, the parse error otherwise.  There
    are never more chunks than events. *)
Theorem event_source_handler_chunks
  (chunkSchema : ZodSchema) u rbv response
  (stream : ReadableStream (list Byte.byte)) :
  body response = Some stream ->
  exists chunks,
    settle (createEventSourceResponseHandler safeParseJSON TextDecoderStream
              EventSourceParserStream chunkSchema u rbv response)
    = Normal chunks
    /\ Forall2 (fun ev chunk =>
                  match safeParseJSON (EventSource.data ev) chunkSchema with
                  | Success value => chunk = ValueChunk value
                  | Failure error => chunk = ErrorChunk error
                  end)
               (filter notDone (framing stream)) chunks
    /\ List.length chunks <= List.length (framing stream).
Proof.
  intros Hbody.
  exists (payloadDecoding chunkSchema (framing stream)).
  unfold createEventSourceResponseHandler. rewrite Hbody. simpl.
  split; [reflexivity|].
  assert (Hchunks :
    Forall2 (fun ev chunk =>
               match safeParseJSON (EventSource.data ev) chunkSchema with
               | Success value => chunk = ValueChunk value
               | Failure error => chunk = ErrorChunk error
               end)
            (filter notDone (framing stream))
            (payloadDecoding chunkSchema (framing stream))).
  { rewrite payloadDecoding_flat_map.
    induction (framing stream) as [|ev events IH]; simpl; [constructor|].
    unfold transform at 1, enqueue.
    destruct (JsString.eqb (EventSource.data ev) DONE); simpl; [exact IH|].
    constructor; [|exact IH].
    destruct (safeParseJSON (EventSource.data ev) chunkSchema); reflexivity. }
  split; [exact Hchunks|].
  rewrite <- (Forall2_length Hchunks). apply filter_length_le.
Qed.

(** X11. The payload stage reads the [data] field only: two sequences of
    events with the same data give the same chunks, whatever their event
    names, ids and retry values. *)
Theorem payload_stage_reads_data_only
  (chunkSchema : ZodSchema)
  (events1 events2 : list EventSource.ParsedEvent) :
  map EventSource.data events1 = map EventSource.data events2 ->
  payloadDecoding chunkSchema events1 = payloadDecoding chunkSchema events2.
Proof.
  rewrite !payloadDecoding_flat_map.
  revert events2.
  induction events1 as [|ev1 events1 IH]; intros [|ev2 events2]; simpl;
    try discriminate; [reflexivity|].
  intros [= Hdata Hrest].
  rewrite (IH events2 Hrest). f_equal.
  unfold transform. now rewrite Hdata.
Qed.

(** X12. A body that frames into [[DONE]] events only, or into no event
    at all, gives the empty sequence of chunks, not a failure. *)
Theorem event_source_handler_only_done
  (chunkSchema : ZodSchema) u rbv response
  (stream : ReadableStream (list Byte.byte)) :
  body response = Some stream ->
  Forall (fun ev => EventSource.data ev = DONE) (framing stream) ->
  settle (createEventSourceResponseHandler safeParseJSON TextDecoderStream
            EventSourceParserStream chunkSchema u rbv response)
  = Normal [].
Proof.
  intros Hbody Hdone.
  unfold createEventSourceResponseHandler. rewrite Hbody. simpl.
  rewrite payloadDecoding_flat_map. f_equal.
  induction Hdone as [|ev events Hev _ IH]; simpl; [reflexivity|].
  now rewrite (transform_skips_done chunkSchema ev Hev).
Qed.

End HandlerBehaviour.

(** ** Further behaviour on concrete responses *)

Section BehaviourScenarios.

Import Example.

Local Abbreviation errorHandler :=
  (createJsonErrorResponseHandler parseJSON errorSchema).

Local Abbreviation eventSourceHandler :=
  (createEventSourceResponseHandler safeParseJSON textDecoderStream
     eventSourceParserStream chunkSchema).

Local Abbreviation jsonHandler :=
  (createJsonResponseHandler safeParseJSON chunkSchema).

Local Abbreviation payloadStage events :=
  (pipeThrough events (transformer (transform safeParseJSON chunkSchema))).

(** Status 429, a body that decodes, and a message-mapping function that
    throws: the payload is dropped. *)
Lemma error_handler_mapper_throws_witness :
  settle (errorHandler errorToMessageThrows (Some retryOn429)
            sampleUrl sampleRequest response429)
  = Normal {| message := lit "Too Many Requests";
              url := sampleUrl;
              requestBodyValues := sampleRequest;
              statusCode := 429%N;
              responseBody := rateLimitedBody;
              cause := None;
              isRetryable := Some true;
              data := None |}.
Proof.
  refine (error_handler_mapper_throws _ _ _ _ parseJSON errorSchema
            errorToMessageThrows (Some retryOn429) sampleUrl sampleRequest
            response429 rateLimitedBody (JStr (lit "rate limited"))
            (ThrownValue (lit "no message")) (Some true)
            eq_refl _ eq_refl eq_refl eq_refl).
  intros H. discriminate H.
Defined.

Lemma error_handler_predicate_throws_on_payload_witness :
  settle (errorHandler errorToMessage (Some retryThrowsOnPayload)
            sampleUrl sampleRequest response429)
  = Normal {| message := lit "Too Many Requests";
              url := sampleUrl;
              requestBodyValues := sampleRequest;
              statusCode := 429%N;
              responseBody := rateLimitedBody;
              cause := None;
              isRetryable := Some true;
              data := None |}.
Proof.
  refine (error_handler_predicate_throws_on_payload _ _ _ _ parseJSON
            errorSchema errorToMessage retryThrowsOnPayload
            sampleUrl sampleRequest response429 rateLimitedBody
            (JStr (lit "rate limited")) (lit "rate limited")
            (ThrownValue (lit "predicate failed")) true
            eq_refl _ eq_refl eq_refl eq_refl eq_refl).
  intros H. discriminate H.
Defined.

Lemma error_handler_throw_origin_witness :
  text response500 = Throw (ThrownValue (lit "predicate failed")) \/
  exists p,
    Some retryThrows = Some p /\
    p response500 None = Throw (ThrownValue (lit "predicate failed")).
Proof.
  exact (error_handler_throw_origin _ _ _ _ parseJSON errorSchema
           errorToMessage (Some retryThrows) sampleUrl sampleRequest
           response500 (ThrownValue (lit "predicate failed")) eq_refl).
Defined.

Lemma error_handler_payload_provenance_witness :
  cause rateLimitedError = None /\
  match data rateLimitedError with
  | Some payload =>
      trim (responseBody rateLimitedError) <> empty /\
      parseJSON (responseBody rateLimitedError) errorSchema = Normal payload /\
      errorToMessage payload = Normal (message rateLimitedError)
  | None => message rateLimitedError = statusText response429
  end.
Proof.
  exact (error_handler_payload_provenance _ _ _ _ parseJSON errorSchema
           errorToMessage (Some retryOn429) sampleUrl sampleRequest
           response429 rateLimitedError eq_refl).
Defined.

Lemma error_handler_flag_verdict_witness :
  exists b,
    retryOn429 response429 (data rateLimitedError) = Normal b /\
    isRetryable rateLimitedError = Some b.
Proof.
  exact (error_handler_flag_verdict _ _ _ _ parseJSON errorSchema
           errorToMessage (Some retryOn429) sampleUrl sampleRequest
           response429 rateLimitedError eq_refl).
Defined.

(** The body of [response500] is two spaces and a line feed. *)
Lemma error_handler_blank_body_skips_decoder_witness :
  settle (createJsonErrorResponseHandler parseJSON errorSchema
            errorToMessage (Some retryOn429)
            sampleUrl sampleRequest response500)
  = settle (createJsonErrorResponseHandler parseJSONNever chunkSchema
              errorToMessageThrows (Some retryOn429)
              sampleUrl sampleRequest response500).
Proof.
  exact (error_handler_blank_body_skips_decoder _ _ _ _ parseJSON
           parseJSONNever errorSchema chunkSchema errorToMessage
           errorToMessageThrows (Some retryOn429) sampleUrl sampleRequest
           response500 (lit "  " ++ [LF]) eq_refl eq_refl).
Defined.

Lemma json_handler_value_origin_witness :
  exists responseBody,
    text response200 = Normal responseBody /\
    safeParseJSON responseBody chunkSchema = Success (JNum 1).
Proof.
  exact (json_handler_value_origin _ _ _ _ safeParseJSON chunkSchema
           sampleUrl sampleRequest response200 (JNum 1) eq_refl).
Defined.

Lemma json_handler_throw_origin_witness :
  text response502 = Throw invalidJson502
  \/
  exists responseBody error,
    text response502 = Normal responseBody /\
    safeParseJSON responseBody chunkSchema = Failure error /\
    invalidJson502
    = ThrownApiCallError
        {| message := lit "Invalid JSON response";
           url := sampleUrl;
           requestBodyValues := sampleRequest;
           statusCode := status response502;
           responseBody := responseBody;
           cause := Some error;
           isRetryable := None;
           data := None |}.
Proof.
  exact (json_handler_throw_origin _ _ _ _ safeParseJSON chunkSchema
           sampleUrl sampleRequest response502 invalidJson502 eq_refl).
Defined.

(** [data: [DONE]] first, then [data: {"v":1}]: the value still comes
    out. *)
Lemma event_source_handler_done_not_terminal_witness :
  settle (eventSourceHandler sampleUrl sampleRequest responseDoneFirst)
  = Normal [ValueChunk (JNum 1)].
Proof.
  exact (event_source_handler_done_not_terminal _ _ _ _ safeParseJSON
           textDecoderStream eventSourceParserStream chunkSchema
           sampleUrl sampleRequest responseDoneFirst
           [toBytes doneFirstText] [] [eventOf v1Body] (eventOf DONE)
           eq_refl eq_refl eq_refl).
Defined.

Lemma event_source_handler_chunks_witness :
  exists chunks,
    settle (eventSourceHandler sampleUrl sampleRequest responseMixedStream)
    = Normal chunks
    /\ Forall2 (fun ev chunk =>
                  match safeParseJSON (EventSource.data ev) chunkSchema with
                  | Success value => chunk = ValueChunk value
                  | Failure error => chunk = ErrorChunk error
                  end)
               (filter
                  (fun ev => negb (JsString.eqb (EventSource.data ev) DONE))
                  (pipeThrough
                     (pipeThrough [toBytes mixedStreamText] textDecoderStream)
                     eventSourceParserStream))
               chunks
    /\ List.length chunks
       <= List.length
            (pipeThrough
               (pipeThrough [toBytes mixedStreamText] textDecoderStream)
               eventSourceParserStream).
Proof.
  exact (event_source_handler_chunks _ _ _ _ safeParseJSON
           textDecoderStream eventSourceParserStream chunkSchema
           sampleUrl sampleRequest responseMixedStream
           [toBytes mixedStreamText] eq_refl).
Defined.

Lemma payload_stage_reads_data_only_witness :
  payloadStage [namedEvent v1Body; namedEvent (lit "oops")]
  = payloadStage [eventOf v1Body; eventOf (lit "oops")].
Proof.
  exact (payload_stage_reads_data_only _ _ _ safeParseJSON chunkSchema
           [namedEvent v1Body; namedEvent (lit "oops")]
           [eventOf v1Body; eventOf (lit "oops")] eq_refl).
Defined.

Lemma event_source_handler_only_done_witness :
  settle (eventSourceHandler sampleUrl sampleRequest responseOnlyDone)
  = Normal [].
Proof.
  refine (event_source_handler_only_done _ _ _ _ safeParseJSON
            textDecoderStream eventSourceParserStream chunkSchema
            sampleUrl sampleRequest responseOnlyDone
            [toBytes onlyDoneText] eq_refl _).
  change (Forall (fun ev => EventSource.data ev = DONE)
            [eventOf DONE; eventOf DONE]).
  repeat constructor.
Defined.

End BehaviourScenarios.
